(** * Chain and gate hooks: response interpreter, state store, enforcement gate

    A shallow embedding of

    - [.claude-plugin/hooks/lib/session_state.py] (module [SessionState]),
    - [.claude-plugin/hooks/gate-enforce.py]      (module [GateEnforce]),
    - [hooks/post-prompt-engine.py]               (module [PostPromptEngine]),

    together with the fragment of Python's [re] that their patterns use
    (module [Re]), and the properties of the three components.

    Conventions.  A Python [str] is a [string]; a character outside ASCII is
    its UTF-8 byte sequence, so the bullet of the criteria pattern is the
    three-byte literal ["•"].  The classes [\s] and [\d], [str.strip],
    [int] and [re.IGNORECASE] are taken on ASCII; white space, decimal
    digits and case variants of other scripts are not represented.  Python
    integers are [Z].  A dict read with [.get(key, "")] is a
    [gmap string string]; the [ChainState] dict is a record.  The session
    files are a [gmap] from session identifiers to what [open] and
    [json.load] make of each file; exceptions are results. *)

From Stdlib Require Import Ascii String ZArith Lia Bool DecimalString.
From stdpp Require Import base option list strings gmap.

Local Open Scope Z_scope.

(** ** Characters and strings *)

Module Chars.

Definition code (c : ascii) : N := N_of_ascii c.

Definition in_range (lo hi : N) (c : ascii) : bool :=
  ((lo <=? code c) && (code c <=? hi))%N.

(** [\d] *)
Definition is_digit : ascii -> bool := in_range 48 57.

(** [\s], and the characters [str.strip] removes: TAB, LF, VT, FF, CR, the
    four separators FS, GS, RS, US, and the space. *)
Definition is_space (c : ascii) : bool :=
  in_range 9 13 c || in_range 28 31 c || (code c =? 32)%N.

Definition is_upper : ascii -> bool := in_range 65 90.
Definition is_lower : ascii -> bool := in_range 97 122.
Definition is_alpha (c : ascii) : bool := is_upper c || is_lower c.
Definition is_alnum (c : ascii) : bool := is_alpha c || is_digit c.

(** [.] without [re.DOTALL] *)
Definition not_newline (c : ascii) : bool := negb (code c =? 10)%N.

Definition lower (c : ascii) : ascii :=
  if is_upper c then ascii_of_N (code c + 32) else c.
Definition upper (c : ascii) : ascii :=
  if is_lower c then ascii_of_N (code c - 32) else c.

Definition one_of (s : string) (c : ascii) : bool :=
  existsb (Ascii.eqb c) (list_ascii_of_string s).

End Chars.

Module Str.

(** [needle in hay] *)
Fixpoint contains (needle hay : string) : bool :=
  String.prefix needle hay ||
  match hay with
  | EmptyString => false
  | String _ hay' => contains needle hay'
  end.

Fixpoint lstrip (s : string) : string :=
  match s with
  | EmptyString => EmptyString
  | String c s' => if Chars.is_space c then lstrip s' else s
  end.

Fixpoint rstrip (s : string) : string :=
  match s with
  | EmptyString => EmptyString
  | String c s' =>
      match rstrip s' with
      | EmptyString => if Chars.is_space c then EmptyString else String c EmptyString
      | t => String c t
      end
  end.

(** [s.strip()] *)
Definition strip (s : string) : string := lstrip (rstrip s).

(** [int(s)] on a string of decimal digits (the only strings the hooks
    convert are [\d+] groups). *)
Fixpoint int_acc (acc : Z) (s : string) : Z :=
  match s with
  | EmptyString => acc
  | String c s' => int_acc (10 * acc + (Z.of_N (Chars.code c) - 48)) s'
  end.
Definition int (s : string) : Z := int_acc 0 s.

(** [sep.join(l)] *)
Fixpoint join (sep : string) (l : list string) : string :=
  match l with
  | [] => EmptyString
  | [x] => x
  | x :: l' => x +:+ sep +:+ join sep l'
  end.

(** Python's truth value of a string. *)
Definition truthy (s : string) : bool :=
  match s with EmptyString => false | _ => true end.

(** The text of [s] in front of its suffix [rest]. *)
Definition consumed (s rest : string) : string :=
  String.substring 0 (String.length s - String.length rest) s.

(** [s] without its longest prefix of characters in the class [f]. *)
Fixpoint drop_while (f : ascii -> bool) (s : string) : string :=
  match s with
  | EmptyString => EmptyString
  | String c s' => if f c then drop_while f s' else s
  end.

(** Every character of [s] is in the class [f]. *)
Fixpoint all (f : ascii -> bool) (s : string) : bool :=
  match s with
  | EmptyString => true
  | String c s' => f c && all f s'
  end.

(** [inner] occurs in [s]. *)
Definition Contains (inner s : string) : Prop :=
  exists pre post, s = pre +:+ inner +:+ post.

(** [rest] is what is left of [s] behind some prefix. *)
Definition suffix_of (rest s : string) : Prop := exists w, s = w +:+ rest.

End Str.

(** ** The fragment of [re] the hooks use *)

Module Re.

(** Patterns.  Every repetition in the hooks' patterns is over a single
    character class, so [Star] takes the class; [greedy = false] is the
    lazy form ([*?]).  [Eos] is [$]. *)
Inductive regex : Type :=
| Chr (p : ascii -> bool)
| Lit (s : string)
| Seq (r1 r2 : regex)
| Alt (r1 r2 : regex)
| Star (greedy : bool) (p : ascii -> bool)
| Group (r : regex)
| Eos.

(** [p+] and [p+?] *)
Definition Plus (greedy : bool) (p : ascii -> bool) : regex :=
  Seq (Chr p) (Star greedy p).

(** A character against a class, under [re.IGNORECASE] when [ic]. *)
Definition chr_ok (ic : bool) (p : ascii -> bool) (c : ascii) : bool :=
  p c || (ic && (p (Chars.lower c) || p (Chars.upper c))).

Definition chr_eq (ic : bool) (a c : ascii) : bool :=
  chr_ok ic (Ascii.eqb a) c.

(** The ways a literal matches at the start of [s]: at most one. *)
Fixpoint lit_match (ic : bool) (l s : string) : list string :=
  match l with
  | EmptyString => [s]
  | String a l' =>
      match s with
      | EmptyString => []
      | String c s' => if chr_eq ic a c then lit_match ic l' s' else []
      end
  end.

(** The suffixes left by [p*], longest repetition first. *)
Fixpoint star_greedy (f : ascii -> bool) (s : string) : list string :=
  match s with
  | EmptyString => [s]
  | String c s' => if f c then star_greedy f s' ++ [s] else [s]
  end.

(** The suffixes left by [p*?], shortest repetition first. *)
Fixpoint star_lazy (f : ascii -> bool) (s : string) : list string :=
  match s with
  | EmptyString => [s]
  | String c s' => if f c then s :: star_lazy f s' else [s]
  end.

(** [$] without [re.MULTILINE]: at the end of the string, or in front of
    a newline that ends the string. *)
Definition at_end (s : string) : bool :=
  match s with
  | EmptyString => true
  | String c EmptyString => negb (Chars.not_newline c)
  | _ => false
  end.

(** [re_match ic r s caps] lists the ways [r] matches a prefix of [s], in
    the order in which the backtracking matcher tries them; each way is
    the captured groups so far (in order of their closing parenthesis,
    which for the hooks' patterns is their number) and the rest of [s]. *)
Fixpoint re_match (ic : bool) (r : regex) (s : string) (caps : list string)
  : list (list string * string) :=
  match r with
  | Chr p =>
      match s with
      | String c s' => if chr_ok ic p c then [(caps, s')] else []
      | EmptyString => []
      end
  | Lit l => (fun rest => (caps, rest)) <$> lit_match ic l s
  | Seq r1 r2 =>
      '(caps1, s1) ← re_match ic r1 s caps; re_match ic r2 s1 caps1
  | Alt r1 r2 => re_match ic r1 s caps ++ re_match ic r2 s caps
  | Star greedy p =>
      (fun rest => (caps, rest)) <$>
        (if greedy then star_greedy else star_lazy) (chr_ok ic p) s
  | Group r1 =>
      (fun '(caps1, rest) => (caps1 ++ [Str.consumed s rest], rest)) <$>
        re_match ic r1 s caps
  | Eos => if at_end s then [(caps, s)] else []
  end.

(** A match object: [group 0] is the whole match. *)
Definition match_obj := list string.

Definition group (m : match_obj) (i : nat) : string := nth i m EmptyString.

(** The first way of matching at the start of [s], if any. *)
Definition match_here (ic : bool) (r : regex) (s : string) : option match_obj :=
  match re_match ic r s [] with
  | (caps, rest) :: _ => Some (Str.consumed s rest :: caps)
  | [] => None
  end.

(** [re.search(r, s)]: the match at the leftmost position that has one. *)
Fixpoint search (ic : bool) (r : regex) (s : string) : option match_obj :=
  match match_here ic r s with
  | Some m => Some m
  | None =>
      match s with
      | EmptyString => None
      | String _ s' => search ic r s'
      end
  end.

(** [re.findall(r, s)] for a pattern with one group: group 1 of the
    successive non-overlapping matches, left to right.  [skip] counts the
    characters still inside the previous match; the scan resumes where
    that match ended. *)
Fixpoint findall_from (ic : bool) (r : regex) (s : string) (skip : nat)
  : list string :=
  match skip with
  | S n =>
      match s with
      | EmptyString => []
      | String _ s' => findall_from ic r s' n
      end
  | O =>
      match match_here ic r s with
      | Some m =>
          group m 1 ::
            match s with
            | EmptyString => []
            | String _ s' =>
                findall_from ic r s' (Nat.pred (String.length (group m 0)))
            end
      | None =>
          match s with
          | EmptyString => []
          | String _ s' => findall_from ic r s' 0
          end
      end
  end.

Definition findall (ic : bool) (r : regex) (s : string) : list string :=
  findall_from ic r s 0.

End Re.

(** ** [session_state.py] *)

Module SessionState.
Import Re.

Notation "r1 +++ r2" := (Seq r1 r2) (at level 60, right associativity).

Definition nl : string := String "010"%char EmptyString.

(** [class ChainState(TypedDict)] *)
Record ChainState : Type := {
  chain_id : string;
  current_step : Z;
  total_steps : Z;
  pending_gate : option string;
  gate_criteria : list string;
  last_prompt_id : string
}.

(** [(?:[Ss]tep|[Pp]rogress)\s+(\d+)\s*(?:of|/)\s*(\d+)] *)
Definition step_re : regex :=
  Alt (Chr (Chars.one_of "Ss") +++ Lit "tep")
      (Chr (Chars.one_of "Pp") +++ Lit "rogress")
  +++ Plus true Chars.is_space
  +++ Group (Plus true Chars.is_digit)
  +++ Star true Chars.is_space
  +++ Alt (Lit "of") (Lit "/")
  +++ Star true Chars.is_space
  +++ Group (Plus true Chars.is_digit).

(** [[a-zA-Z0-9_-]] *)
Definition token_char (c : ascii) : bool :=
  Chars.is_alnum c || Chars.one_of "_-" c.

(** [chain[-_]([a-zA-Z0-9_-]+)] *)
Definition chain_re : regex :=
  Lit "chain" +++ Chr (Chars.one_of "-_") +++ Group (Plus true token_char).

(** [[A-Za-z0-9 _-]] *)
Definition name_char (c : ascii) : bool :=
  Chars.is_alnum c || Chars.one_of " _-" c.

(** [###\s*([A-Za-z][A-Za-z0-9 _-]+)\n] *)
Definition gate_name_re : regex :=
  Lit "###" +++ Star true Chars.is_space
  +++ Group (Chr Chars.is_alpha +++ Plus true name_char)
  +++ Lit nl.

(** [[-•]\s*(.+?)(?:\n|$)] *)
Definition criteria_re : regex :=
  Alt (Lit "-") (Lit "•") +++ Star true Chars.is_space
  +++ Group (Plus false Chars.not_newline)
  +++ Alt (Lit nl) Eos.

(** Python's truth value of [state["pending_gate"]]. *)
Definition gate_truthy (g : option string) : bool :=
  match g with
  | Some name => Str.truthy name
  | None => false
  end.

(** The [state] dict of [parse_prompt_engine_response] when the three
    detection blocks are done, in front of the final test. *)
Definition detected_state (content : string) : ChainState :=
  let step_match := search false step_re content in
  let chain_match := search false chain_re content in
  let gated := Str.contains "## Inline Gates" content || Str.contains "Gate" content in
  let gate_names := findall false gate_name_re content in
  let criteria := findall false criteria_re content in
  {| chain_id :=
       match chain_match with
       | Some m => group m 1
       | None => EmptyString
       end;
     current_step :=
       match step_match with
       | Some m => Str.int (group m 1)
       | None => 0
       end;
     total_steps :=
       match step_match with
       | Some m => Str.int (group m 2)
       | None => 0
       end;
     pending_gate :=
       if gated then
         match gate_names with
         | name :: _ => Some (Str.strip name)
         | [] => None
         end
       else None;
     gate_criteria :=
       if gated then
         Str.strip <$> filter (fun c => Str.truthy (Str.strip c) = true) (take 5 criteria)
       else [];
     last_prompt_id := EmptyString |}.

(** [parse_prompt_engine_response(response)] for a [str] response. *)
Definition parse_prompt_engine_response (content : string) : option ChainState :=
  let state := detected_state content in
  if (0 <? current_step state) || gate_truthy (pending_gate state)
  then Some state
  else None.

(** *** The state store

    One record per session identifier, at
    [SESSION_STATE_DIR / f"{session_id}.json"]; the directory is taken to
    exist or to be creatable.  A record is described by what [open] and
    [json.load] do with the file. *)

Inductive exn : Type :=
| OSError             (* [IOError] is its alias *)
| JSONDecodeError
| UnicodeDecodeError.

Inductive result (A : Type) : Type :=
| Return (a : A)
| Raise (e : exn).
Arguments Return {A} a.
Arguments Raise {A} e.

Inductive record : Type :=
| Inaccessible              (* [open] raises [OSError]: permissions, a directory *)
| Undecodable               (* bytes that are not text in the file's encoding:
                               reading them raises [UnicodeDecodeError] *)
| Malformed                 (* text that is not JSON, an empty file
                               included: [JSONDecodeError] *)
| Json (state : ChainState) (* the JSON of a state dict *).

Abbreviation storage := (gmap string record).

(** [state_path.exists()] *)
Definition path_exists (fs : storage) (session_id : string) : bool :=
  bool_decide (is_Some (fs !! session_id)).

(** [with open(state_path) as f: return json.load(f)] *)
Definition open_json_load (fs : storage) (session_id : string) : result ChainState :=
  match fs !! session_id with
  | None => Raise OSError
  | Some Inaccessible => Raise OSError
  | Some Undecodable => Raise UnicodeDecodeError
  | Some Malformed => Raise JSONDecodeError
  | Some (Json state) => Return state
  end.

Definition load_session_state (fs : storage) (session_id : string)
  : result (option ChainState) :=
  if negb (path_exists fs session_id) then Return None
  else
    match open_json_load fs session_id with
    | Return state => Return (Some state)
    | Raise JSONDecodeError | Raise OSError => Return None
    | Raise e => Raise e
    end.

(** [open(state_path, "w")] creates or truncates the file, and
    [json.dump] then writes the new text into it: the storage a save goes
    through, oldest first.  There is no temporary file and no rename.  An
    [OSError] from [open] is swallowed, and nothing is written. *)
Definition save_trace (fs : storage) (session_id : string) (state : ChainState)
  : list storage :=
  match fs !! session_id with
  | Some Inaccessible => []
  | _ => [ <[session_id := Malformed]> fs; <[session_id := Json state]> fs ]
  end.

Definition save_session_state (fs : storage) (session_id : string) (state : ChainState)
  : storage :=
  default fs (last (save_trace fs session_id state)).

Definition clear_session_state (fs : storage) (session_id : string) : storage :=
  if path_exists fs session_id then delete session_id fs else fs.

End SessionState.

(** ** [gate-enforce.py] *)

Module GateEnforce.
Import Re SessionState.

(** The hook input: [tool_name], [tool_input] and [session_id], each
    read with [.get(key, "")] (or [{}]). *)
Record hook_input : Type := {
  tool_name : string;
  tool_input : gmap string string;
  session_id : string
}.

Definition get (d : gmap string string) (key : string) : string :=
  default EmptyString (d !! key).

(** How the hook ends: exit 0 with no output, exit 0 with a printed
    [permissionDecision: deny], or an exception that nothing catches. *)
Inductive outcome : Type :=
| Allow
| Deny (reason : string)
| Uncaught (e : exn).

(** [GATE_REVIEW:\s*FAIL], searched with [re.IGNORECASE] *)
Definition fail_re : regex :=
  Lit "GATE_REVIEW:" +++ Star true Chars.is_space +++ Lit "FAIL".

(** [FAIL\s*[-:]\s*(.+)], searched with [re.IGNORECASE] *)
Definition reason_re : regex :=
  Lit "FAIL" +++ Star true Chars.is_space +++ Chr (Chars.one_of "-:")
  +++ Star true Chars.is_space +++ Group (Plus true Chars.not_newline).

(** [reason] of check 1 *)
Definition fail_reason (gate_verdict : string) : string :=
  match search true reason_re gate_verdict with
  | Some m => Str.strip (group m 1)
  | None => "unspecified"
  end.

Definition gate_failed_text (reason : string) : string :=
  "Gate failed: " +:+ reason +:+ ". " +:+
  "Review the gate criteria and retry with improvements. " +:+
  "Resubmit with GATE_REVIEW: PASS once criteria are met.".

Definition pending_gate_text (gate : string) : string :=
  "Chain resume requires gate verdict. " +:+
  "Pending gate: " +:+ gate +:+ ". " +:+
  "Include gate_verdict: GATE_REVIEW: PASS|FAIL - <reason>".

Definition user_response_text : string :=
  "Chain resume requires user_response with your output from the previous step. " +:+
  "Include user_response parameter with the work completed.".

(** Check 1: the denial reason of a FAIL verdict, if it fires. *)
Definition check_fail_verdict (gate_verdict : string) : option string :=
  if Str.truthy gate_verdict then
    match search true fail_re gate_verdict with
    | Some _ => Some (gate_failed_text (fail_reason gate_verdict))
    | None => None
    end
  else None.

(** Check 2: the denial reason of a chain resumed with a gate pending
    and no verdict, if it fires. *)
Definition check_pending_gate (fs : storage) (session_id chain_id gate_verdict : string)
  : result (option string) :=
  if Str.truthy chain_id && negb (Str.truthy gate_verdict) then
    match (if Str.truthy session_id
           then load_session_state fs session_id
           else Return None) with
    | Raise e => Raise e
    | Return (Some state) =>
        match pending_gate state with
        | Some gate =>
            if Str.truthy gate then Return (Some (pending_gate_text gate))
            else Return None
        | None => Return None
        end
    | Return None => Return None
    end
  else Return None.

Definition main (fs : storage) (input : hook_input) : outcome :=
  if negb (Str.contains "prompt_engine" (tool_name input)) then Allow
  else
    let chain_id := get (tool_input input) "chain_id" in
    let gate_verdict := get (tool_input input) "gate_verdict" in
    let user_response := get (tool_input input) "user_response" in
    match check_fail_verdict gate_verdict with
    | Some reason => Deny reason
    | None =>
        match check_pending_gate fs (session_id input) chain_id gate_verdict with
        | Raise e => Uncaught e
        | Return (Some reason) => Deny reason
        | Return None =>
            (* Check 3 *)
            if Str.truthy chain_id && negb (Str.truthy user_response)
            then Deny user_response_text
            else Allow
        end
    end.

End GateEnforce.

(** ** [post-prompt-engine.py] *)

Module PostPromptEngine.
Import Re SessionState.

(** A block of a [content] array: a dict (with or without a ["text"]),
    or a string. *)
Inductive block : Type :=
| BlockDict (text : option string)
| BlockStr (s : string).

(** [tool_response.get("content", "")] *)
Inductive response_content : Type :=
| NoContent
| TextContent (s : string)
| BlockContent (blocks : list block).

Inductive tool_response : Type :=
| ResponseDict (content : response_content)
| ResponseStr (s : string).

Record hook_input : Type := {
  tool_name : string;
  session_id : string;
  response : tool_response
}.

Definition block_text (b : block) : string :=
  match b with
  | BlockDict text => default EmptyString text
  | BlockStr s => s
  end.

(** The text handed to [parse_prompt_engine_response]. *)
Definition content_of (r : tool_response) : string :=
  match r with
  | ResponseDict NoContent => EmptyString
  | ResponseDict (TextContent s) => s
  | ResponseDict (BlockContent blocks) => Str.join " " (block_text <$> blocks)
  | ResponseStr s => s
  end.

(** [f"{n}"] for an integer *)
Definition of_int (n : Z) : string := NilZero.string_of_int (Z.to_int n).

Definition gate_lines (state : ChainState) : list string :=
  match pending_gate state with
  | Some gate =>
      if Str.truthy gate then
        let criteria := gate_criteria state in
        let criteria_str :=
          Str.join " | " (String.substring 0 40 <$> take 3 criteria) in
        ["[Gate] " +:+ gate; "  Respond: GATE_REVIEW: PASS|FAIL - <reason>"]
        ++ (if Str.truthy criteria_str then ["  Check: " +:+ criteria_str] else [])
      else []
  | None => []
  end.

Definition chain_lines (state : ChainState) : list string :=
  let step := current_step state in
  let total := total_steps state in
  if (0 <? step) && (0 <? total) && (step <? total)
  then ["[Chain] Step " +:+ of_int step +:+ "/" +:+ of_int total
        +:+ " - call prompt_engine to continue"]
  else [].

(** The hook: the storage it leaves and the [additionalContext] it
    prints, if any. *)
Definition main (fs : storage) (input : hook_input) : storage * option string :=
  if negb (Str.contains "prompt_engine" (tool_name input)) then (fs, None)
  else
    match parse_prompt_engine_response (content_of (response input)) with
    | None => (fs, None)
    | Some state =>
        let fs' := save_session_state fs (session_id input) state in
        let output_lines := gate_lines state ++ chain_lines state in
        (fs', match output_lines with
              | [] => None
              | _ => Some (Str.join nl output_lines)
              end)
    end.

End PostPromptEngine.

(** ** Gate criteria as the specification words them

  "Extract bullet-style lines (lines starting with a dash or bullet
  character) as gate_criteria, trimmed, empty lines discarded, capped at
  the first five." *)

Module Spec.

Fixpoint lines (s : string) : list string :=
  match s with
  | EmptyString => [EmptyString]
  | String c s' =>
      if Chars.not_newline c then
        match lines s' with
        | l :: ls => String c l :: ls
        | [] => [String c EmptyString]
        end
      else EmptyString :: lines s'
  end.

(** The text of a line that starts with a dash or a bullet. *)
Definition bullet_text (line : string) : option string :=
  if String.prefix "-" line
  then Some (String.substring 1 (String.length line) line)
  else if String.prefix "•" line
  then Some (String.substring 3 (String.length line) line)
  else None.

Definition gate_criteria (content : string) : list string :=
  take 5 (filter (fun c => c <> EmptyString)
            (Str.strip <$> omap bullet_text (lines content))).

End Spec.

(** ** Texts with bullet items *)

Module Bullets.
Import SessionState.

(** A response text cut into pieces: running text, and bullet items, each
    of them a marker (a dash or a bullet), white space, the item and the
    newline that ends it. *)
Inductive piece : Type :=
| Text (text : string)
| Item (marker pad item : string).

Definition render_piece (p : piece) : string :=
  match p with
  | Text text => text
  | Item marker pad item => marker +:+ pad +:+ item +:+ nl
  end.

Fixpoint render (doc : list piece) : string :=
  match doc with
  | [] => EmptyString
  | p :: doc' => render_piece p +:+ render doc'
  end.

Definition items_of (doc : list piece) : list string :=
  omap (fun p => match p with
                 | Item _ _ item => Some item
                 | Text _ => None
                 end) doc.

(** An item: one line of text that starts with a character other than
    white space. *)
Definition item_ok (item : string) : Prop :=
  match item with
  | EmptyString => False
  | String c _ => Chars.is_space c = false
  end /\ Str.all Chars.not_newline item = true.

(** A text without a dash and without the first byte of a bullet. *)
Definition bullet_free (s : string) : bool :=
  Str.all (fun c => negb (Ascii.eqb c "-") && negb (Ascii.eqb c "226")) s.

(** Dashes and bullets occur as the markers of items only. *)
Definition piece_ok (p : piece) : Prop :=
  match p with
  | Text text => bullet_free text = true
  | Item marker pad item =>
      (marker = "-" \/ marker = "•")
      /\ Str.all Chars.is_space pad = true
      /\ item_ok item
  end.

End Bullets.

(** ** Step markers *)

Module Markers.

(** The leading words and the separators of the step pattern. *)
Definition step_words : list string := ["Step"; "step"; "Progress"; "progress"].
Definition step_separators : list string := [" of "; "/"].

(** What stands between FAIL and the reason in a verdict. *)
Definition fail_separators : list string := [" - "; ": "].

(** A text without the first letter of a step word and without the mark
    of a heading. *)
Definition plain (s : string) : bool :=
  Str.all (fun c => negb (Chars.one_of "SsPp#" c)) s.

End Markers.

(** ** Sample data *)

Module Samples.
Import SessionState.

Definition engine : string := "mcp__claude-prompts-mcp__prompt_engine".

(** A stored state with a gate pending. *)
Definition review_state : ChainState :=
  {| chain_id := "review";
     current_step := 1;
     total_steps := 3;
     pending_gate := Some "Security Review";
     gate_criteria := ["No secrets in the diff"];
     last_prompt_id := EmptyString |}.

(** The state of the chain's next step. *)
Definition next_state : ChainState :=
  {| chain_id := "review";
     current_step := 2;
     total_steps := 3;
     pending_gate := None;
     gate_criteria := [];
     last_prompt_id := EmptyString |}.

Definition call (params : gmap string string) (session : string)
  : GateEnforce.hook_input :=
  {| GateEnforce.tool_name := engine;
     GateEnforce.tool_input := params;
     GateEnforce.session_id := session |}.

(** Storage with the review state of session [s1]; with the same state
    under the empty identifier; with a record of [s1] that is not text. *)
Definition stored_review : storage := {[ "s1" := Json review_state ]}.
Definition stored_anonymous : storage := {[ "" := Json review_state ]}.
Definition stored_undecodable : storage := {[ "s1" := Undecodable ]}.

Definition pass_verdict : string := "GATE_REVIEW: PASS - all checks done".
Definition fail_verdict : string := "GATE_REVIEW: FAIL - missing tests".

Definition resume_call : GateEnforce.hook_input :=
  call {[ "chain_id" := "review" ]} "s1".
Definition anonymous_call : GateEnforce.hook_input :=
  call {[ "chain_id" := "review"; "user_response" := "done" ]} "".
Definition failed_call : GateEnforce.hook_input :=
  call {[ "gate_verdict" := fail_verdict ]} "s1".
Definition passed_call : GateEnforce.hook_input :=
  call {[ "chain_id" := "review"; "gate_verdict" := pass_verdict;
          "user_response" := "step one is done" ]} "s1".
Definition passed_call_no_response : GateEnforce.hook_input :=
  call {[ "chain_id" := "review"; "gate_verdict" := pass_verdict ]} "s1".

Definition plain_text : string := "All done, nothing is pending.".
Definition two_markers : string := "Step 1 of 3 is done. Step 2 of 5 is next.".
Definition marker_text : string := "Intro. Step 2 of 5: draft. Then Step 3 of 5.".
Definition resume_text : string := "Step 1 of 3. Resume with chain-review_42.".

(** A gate section whose heading holds a dash. *)
Definition dashed_heading : string :=
  "## Inline Gates" +:+ nl +:+ "### code-quality" +:+ nl +:+ "- tests pass" +:+ nl.

Definition gate_header : string :=
  "## Inline Gates" +:+ nl +:+ "### Quality" +:+ nl.

(** A gate section with seven items. *)
Definition seven_items : list Bullets.piece :=
  [ Bullets.Text gate_header;
    Bullets.Item "-" " " "tests pass";
    Bullets.Item "-" " " "no lint errors  ";
    Bullets.Item "•" " " "docs updated";
    Bullets.Item "•" "" "changelog entry";
    Bullets.Text ("Further checks:" +:+ nl);
    Bullets.Item "-" "  " "reviewed by a peer";
    Bullets.Item "-" " " "benchmarks stable";
    Bullets.Item "-" " " "no TODO left" ].

End Samples.

(** * Properties *)

(** Evaluation of the matcher on a text whose first characters are known. *)

Ltac eval_chr :=
  repeat match goal with
  | |- context [Re.chr_ok ?ic ?p (Ascii ?b0 ?b1 ?b2 ?b3 ?b4 ?b5 ?b6 ?b7)] =>
      let t := constr:(Re.chr_ok ic p (Ascii b0 b1 b2 b3 b4 b5 b6 b7)) in
      let v := eval vm_compute in t in
      change t with v
  | |- context [Re.chr_eq ?ic ?a (Ascii ?b0 ?b1 ?b2 ?b3 ?b4 ?b5 ?b6 ?b7)] =>
      let t := constr:(Re.chr_eq ic a (Ascii b0 b1 b2 b3 b4 b5 b6 b7)) in
      let v := eval vm_compute in t in
      change t with v
  end.

Ltac re_eval :=
  repeat (progress
            (cbn [Re.re_match Re.lit_match Re.star_greedy Re.star_lazy Re.Plus
                  Re.at_end mbind list_bind fmap list_fmap app head];
             eval_chr)).

(** ** The patterns at work *)

Section PatternExamples.
Import Str Re SessionState GateEnforce.

Example step_slash :
  search false step_re "step 2/4" = Some ["step 2/4"; "2"; "4"].
Proof. by vm_compute. Qed.

Example step_spaced :
  search false step_re "Progress 1 / 2 done" = Some ["Progress 1 / 2"; "1"; "2"].
Proof. by vm_compute. Qed.

Example step_across_lines :
  search false step_re ("Step" +:+ nl +:+ "10 of  12")
  = Some ["Step" +:+ nl +:+ "10 of  12"; "10"; "12"].
Proof. by vm_compute. Qed.

Example step_longer_total :
  search false step_re "Step 2 of 55" = Some ["Step 2 of 55"; "2"; "55"].
Proof. by vm_compute. Qed.

Example step_upper_separator : search false step_re "Step 2 OF 5" = None.
Proof. by vm_compute. Qed.

Example chain_word : search false chain_re "chain_id: abc" = Some ["chain_id"; "id"].
Proof. by vm_compute. Qed.

Example chain_twice :
  search false chain_re "see chain-chain-7.x" = Some ["chain-chain-7"; "chain-7"].
Proof. by vm_compute. Qed.

Example gate_names :
  findall false gate_name_re
    ("### Security Review" +:+ nl +:+ "#### Code Quality" +:+ nl +:+ "### X" +:+ nl)
  = ["Security Review"; "Code Quality"].
Proof. by vm_compute. Qed.

(** A blank item above another one: the white space behind its marker
    runs over the newline, and the next line is captured with its dash. *)
Example criteria_blank_item :
  findall false criteria_re ("- a" +:+ nl +:+ "- " +:+ nl +:+ "- b" +:+ nl)
  = ["a"; "- b"].
Proof. by vm_compute. Qed.

Example criteria_markers :
  findall false criteria_re ("• one" +:+ nl +:+ "-two") = ["one"; "two"].
Proof. by vm_compute. Qed.

Example criteria_blank_last :
  findall false criteria_re ("- a" +:+ nl +:+ "- ") = ["a"; " "].
Proof. by vm_compute. Qed.

Example fail_lower_case :
  search true fail_re "gate_review:   fail" = Some ["gate_review:   fail"].
Proof. by vm_compute. Qed.

Example reason_colon :
  search true reason_re ("GATE_REVIEW: FAIL: tests" +:+ nl +:+ "more")
  = Some ["FAIL: tests"; "tests"].
Proof. by vm_compute. Qed.

Example reason_next_line :
  search true reason_re ("GATE_REVIEW: FAIL -" +:+ nl +:+ "  late")
  = Some ["FAIL -" +:+ nl +:+ "  late"; "late"].
Proof. by vm_compute. Qed.

Example strip_both_ends :
  strip ("  two words " +:+ nl) = "two words".
Proof. by vm_compute. Qed.

End PatternExamples.

(** ** Strings *)

Section StringFacts.
Import Str.

Lemma append_nil_r (s : string) : s +:+ "" = s.
Proof. induction s as [|c s IH]; [done|]. unfold String.app in *; simpl. by rewrite IH. Qed.

Lemma append_assoc (a b c : string) : (a +:+ b) +:+ c = a +:+ (b +:+ c).
Proof. induction a as [|x a IH]; [done|]. unfold String.app in *; simpl. by rewrite IH. Qed.

Lemma append_cons (x : ascii) (a b : string) : String x a +:+ b = String x (a +:+ b).
Proof. done. Qed.

Lemma length_append (a b : string) :
  String.length (a +:+ b) = (String.length a + String.length b)%nat.
Proof. induction a as [|x a IH]; [done|]. rewrite append_cons. simpl. by rewrite IH. Qed.

Lemma truthy_true (s : string) : truthy s = true <-> s <> "".
Proof. by destruct s. Qed.

End StringFacts.

(** ** The enforcement gate *)

Section GateFacts.
Import Re SessionState GateEnforce.

Lemma main_prompt_engine fs input :
  Str.contains "prompt_engine" (tool_name input) = true ->
  main fs input =
    match check_fail_verdict (get (tool_input input) "gate_verdict") with
    | Some reason => Deny reason
    | None =>
        match check_pending_gate fs (session_id input)
                (get (tool_input input) "chain_id")
                (get (tool_input input) "gate_verdict") with
        | Raise e => Uncaught e
        | Return (Some reason) => Deny reason
        | Return None =>
            if Str.truthy (get (tool_input input) "chain_id")
               && negb (Str.truthy (get (tool_input input) "user_response"))
            then Deny user_response_text
            else Allow
        end
    end.
Proof. intros H. unfold main. by rewrite H. Qed.

Lemma check_pending_gate_verdict fs sid chain v :
  Str.truthy v = true -> check_pending_gate fs sid chain v = Return None.
Proof.
  intros H. unfold check_pending_gate. rewrite H.
  by rewrite andb_false_r.
Qed.

End GateFacts.

(** ** The matcher *)

Section ReFacts.
Import Str Re.

Lemma substring_app (w rest : string) :
  String.substring 0 (String.length w) (w +:+ rest) = w.
Proof.
  induction w as [|c w IH]; [by destruct rest|].
  rewrite append_cons. simpl. by rewrite IH.
Qed.

Lemma consumed_app (w rest : string) : consumed (w +:+ rest) rest = w.
Proof.
  unfold consumed. rewrite length_append.
  replace (String.length w + String.length rest - String.length rest)%nat
    with (String.length w) by lia.
  apply substring_app.
Qed.

Lemma consumed_all (s : string) : consumed s "" = s.
Proof. rewrite <- (append_nil_r s) at 1. apply consumed_app. Qed.

Lemma append_eq_self (w s : string) : w +:+ s = s -> w = "".
Proof.
  intros H. apply (f_equal String.length) in H. rewrite length_append in H.
  destruct w; [done|]. simpl in H. lia.
Qed.

Lemma append_inv_r (w1 w2 s : string) : w1 +:+ s = w2 +:+ s -> w1 = w2.
Proof.
  revert w2. induction w1 as [|c w1 IH]; intros w2 H.
  - symmetry. eapply append_eq_self. symmetry. exact H.
  - destruct w2 as [|c2 w2].
    + apply append_eq_self in H. done.
    + rewrite !append_cons in H. injection H as -> H. f_equal. by apply IH.
Qed.

(** *** Suffixes *)

Lemma suffix_of_refl s : suffix_of s s.
Proof. by exists "". Qed.

Lemma suffix_of_cons c rest s : suffix_of rest s -> suffix_of rest (String c s).
Proof. intros [w ->]. by exists (String c w). Qed.

Lemma suffix_of_trans a b c : suffix_of a b -> suffix_of b c -> suffix_of a c.
Proof. intros [w1 ->] [w2 ->]. exists (w2 +:+ w1). by rewrite append_assoc. Qed.

Lemma lit_match_suffix ic l s rest :
  rest ∈ lit_match ic l s -> suffix_of rest s.
Proof.
  revert s. induction l as [|a l IH]; intros s; simpl.
  - intros ->%list_elem_of_singleton. apply suffix_of_refl.
  - destruct s as [|c s]; [by intros ?%elem_of_nil|].
    destruct (chr_eq ic a c); [|by intros ?%elem_of_nil].
    intros H. by apply suffix_of_cons, IH.
Qed.

Lemma star_greedy_suffix f s rest :
  rest ∈ star_greedy f s -> suffix_of rest s.
Proof.
  induction s as [|c s IH]; simpl.
  - intros ->%list_elem_of_singleton. apply suffix_of_refl.
  - destruct (f c).
    + rewrite elem_of_app, list_elem_of_singleton.
      intros [H| ->]; [by apply suffix_of_cons, IH|apply suffix_of_refl].
    + intros ->%list_elem_of_singleton. apply suffix_of_refl.
Qed.

Lemma star_lazy_suffix f s rest :
  rest ∈ star_lazy f s -> suffix_of rest s.
Proof.
  induction s as [|c s IH]; simpl.
  - intros ->%list_elem_of_singleton. apply suffix_of_refl.
  - destruct (f c).
    + rewrite elem_of_cons.
      intros [-> |H]; [apply suffix_of_refl|by apply suffix_of_cons, IH].
    + intros ->%list_elem_of_singleton. apply suffix_of_refl.
Qed.

(** Whatever way a pattern matches, what is left is a suffix of the
    text. *)
Lemma re_match_suffix ic r : forall s caps caps' rest,
  (caps', rest) ∈ re_match ic r s caps -> suffix_of rest s.
Proof.
  induction r as [p|l|r1 IH1 r2 IH2|r1 IH1 r2 IH2|g p|r IH|];
    intros s caps caps' rest; simpl.
  - destruct s as [|c s]; [by intros ?%elem_of_nil|].
    destruct (chr_ok ic p c); [|by intros ?%elem_of_nil].
    intros [= -> ->]%list_elem_of_singleton. apply suffix_of_cons, suffix_of_refl.
  - intros (x & [= -> ->] & H)%list_elem_of_fmap. by eapply lit_match_suffix.
  - intros ([c1 s1] & H2 & H1)%list_elem_of_bind.
    eapply suffix_of_trans; [by eapply IH2|by eapply IH1].
  - rewrite elem_of_app. intros [H|H]; [by eapply IH1|by eapply IH2].
  - intros (x & [= -> ->] & H)%list_elem_of_fmap.
    destruct g; [by eapply star_greedy_suffix|by eapply star_lazy_suffix].
  - intros ([c1 s1] & [= -> ->] & H)%list_elem_of_fmap. by eapply IH.
  - destruct (at_end s); [|by intros ?%elem_of_nil].
    intros [= -> ->]%list_elem_of_singleton. apply suffix_of_refl.
Qed.

(** *** Matching here, searching *)

Lemma match_here_Some ic r s m :
  match_here ic r s = Some m ->
  exists caps w rest,
    head (re_match ic r s []) = Some (caps, rest)
    /\ s = w +:+ rest /\ m = w :: caps.
Proof.
  unfold match_here.
  destruct (re_match ic r s []) as [|[caps rest] l] eqn:E; [done|].
  intros [= <-].
  destruct (re_match_suffix ic r s [] caps rest) as [w ->].
  { rewrite E. apply list_elem_of_here. }
  exists caps, w, rest. by rewrite consumed_app.
Qed.

Lemma search_Some ic r s m :
  search ic r s = Some m ->
  exists pre s', s = pre +:+ s' /\ match_here ic r s' = Some m.
Proof.
  induction s as [|c s IH]; simpl.
  - destruct (match_here ic r "") eqn:E; [|done].
    intros [= ->]. by exists "", "".
  - destruct (match_here ic r (String c s)) eqn:E.
    + intros [= ->]. by exists "", (String c s).
    + intros (pre & s' & -> & H)%IH. by exists (String c pre), s'.
Qed.

Lemma search_skip ic r c s :
  match_here ic r (String c s) = None ->
  search ic r (String c s) = search ic r s.
Proof. simpl. by intros ->. Qed.

Lemma search_here ic r s m :
  match_here ic r s = Some m -> search ic r s = Some m.
Proof. destruct s; simpl; by intros ->. Qed.

(** *** Repetitions *)

Lemma star_greedy_head f s :
  exists l, star_greedy f s = drop_while f s :: l.
Proof.
  induction s as [|c s [l IH]]; [by exists []|].
  simpl. destruct (f c).
  - rewrite IH. by exists (l ++ [String c s]).
  - by exists [].
Qed.

Lemma drop_while_all f w s :
  all f w = true -> drop_while f (w +:+ s) = drop_while f s.
Proof.
  induction w as [|c w IH]; [done|].
  simpl. intros [Hc Hw]%andb_true_iff. rewrite Hc. by apply IH.
Qed.

End ReFacts.

Section ReInversion.
Import Str Re.

Lemma chr_ok_exact p c : chr_ok false p c = p c.
Proof. unfold chr_ok. apply orb_false_r. Qed.

Lemma chr_eq_exact a c : chr_eq false a c = true -> c = a.
Proof.
  unfold chr_eq. rewrite chr_ok_exact.
  intros H%Ascii.eqb_eq. done.
Qed.

Lemma lit_match_exact l s :
  lit_match false l s = []
  \/ exists rest, s = l +:+ rest /\ lit_match false l s = [rest].
Proof.
  revert s. induction l as [|a l IH]; intros s; simpl.
  - right. by exists s.
  - destruct s as [|c s]; [by left|].
    destruct (chr_eq false a c) eqn:E; [|by left].
    apply chr_eq_exact in E as ->.
    destruct (IH s) as [H|(rest & -> & H)]; [by left|right].
    by exists rest.
Qed.

Lemma head_lit_seq l r s caps x :
  head (re_match false (Seq (Lit l) r) s caps) = Some x ->
  exists rest, s = l +:+ rest /\ head (re_match false r rest caps) = Some x.
Proof.
  simpl. destruct (lit_match_exact l s) as [-> |(rest & -> & ->)]; [done|].
  simpl. rewrite app_nil_r. intros H. by exists rest.
Qed.

Lemma head_chr_seq ic p r s caps x :
  head (re_match ic (Seq (Chr p) r) s caps) = Some x ->
  exists c rest,
    s = String c rest /\ chr_ok ic p c = true
    /\ head (re_match ic r rest caps) = Some x.
Proof.
  simpl. destruct s as [|c s]; [done|].
  destruct (chr_ok ic p c) eqn:E; [|done].
  simpl. rewrite app_nil_r. intros H. by exists c, s.
Qed.

Lemma head_group ic r s caps caps' rest :
  head (re_match ic (Group r) s caps) = Some (caps', rest) ->
  exists caps1,
    head (re_match ic r s caps) = Some (caps1, rest)
    /\ caps' = caps1 ++ [consumed s rest].
Proof.
  simpl. destruct (re_match ic r s caps) as [|[caps1 rest1] l]; [done|].
  simpl. intros [= <- <-]. by exists caps1.
Qed.

(** A repetition captures nothing and takes at least its first
    character. *)
Lemma plus_elem ic g p s caps caps' rest :
  (caps', rest) ∈ re_match ic (Plus g p) s caps ->
  caps' = caps /\ exists c s', s = String c s' /\ suffix_of rest s'.
Proof.
  unfold Plus. simpl. destruct s as [|c s]; [by intros ?%elem_of_nil|].
  destruct (chr_ok ic p c); [|by intros ?%elem_of_nil].
  simpl. rewrite app_nil_r.
  intros (x & [= -> ->] & H)%list_elem_of_fmap.
  split; [done|]. exists c, s. split; [done|].
  destruct g; [by eapply star_greedy_suffix|by eapply star_lazy_suffix].
Qed.

Lemma head_elem {A} (l : list A) x : head l = Some x -> x ∈ l.
Proof. destruct l; [done|]. intros [= ->]. apply list_elem_of_here. Qed.

Lemma elem_seq ic r1 r2 s caps x :
  x ∈ re_match ic (Seq r1 r2) s caps ->
  exists caps1 s1,
    (caps1, s1) ∈ re_match ic r1 s caps /\ x ∈ re_match ic r2 s1 caps1.
Proof.
  cbn [re_match]. intros ([caps1 s1] & H2 & H1)%list_elem_of_bind.
  by exists caps1, s1.
Qed.

Lemma elem_alt ic r1 r2 s caps x :
  x ∈ re_match ic (Alt r1 r2) s caps ->
  x ∈ re_match ic r1 s caps \/ x ∈ re_match ic r2 s caps.
Proof. cbn [re_match]. apply elem_of_app. Qed.

Lemma elem_chr ic p s caps caps' rest :
  (caps', rest) ∈ re_match ic (Chr p) s caps ->
  exists c, s = String c rest /\ chr_ok ic p c = true /\ caps' = caps.
Proof.
  cbn [re_match]. destruct s as [|c s]; [by intros ?%elem_of_nil|].
  destruct (chr_ok ic p c) eqn:E; [|by intros ?%elem_of_nil].
  intros [= -> ->]%list_elem_of_singleton. by exists c.
Qed.

Lemma elem_lit l s caps caps' rest :
  (caps', rest) ∈ re_match false (Lit l) s caps ->
  s = l +:+ rest /\ caps' = caps.
Proof.
  cbn [re_match]. intros (x & [= -> ->] & H)%list_elem_of_fmap.
  destruct (lit_match_exact l s) as [Hnone | (rest' & -> & Hone)].
  - rewrite Hnone in H. by apply elem_of_nil in H.
  - rewrite Hone in H. by apply list_elem_of_singleton in H as ->.
Qed.

End ReInversion.

Section ChainClaims.
Import Str Re SessionState.

Lemma chain_match_shape s m :
  match_here false chain_re s = Some m ->
  exists sep token,
    Chars.one_of "-_" sep = true
    /\ m = [ "chain" +:+ String sep token; token ].
Proof.
  intros (caps & w & rest & Hhead & -> & ->)%match_here_Some.
  unfold chain_re in Hhead.
  apply head_lit_seq in Hhead as (s1 & Hs & Hhead).
  apply head_chr_seq in Hhead as (sep & s2 & -> & Hsep & Hhead).
  apply head_group in Hhead as (caps1 & Hhead & ->).
  apply head_elem, plus_elem in Hhead as (-> & c & s3 & -> & [w2 ->]).
  exists sep, (String c w2). split; [by rewrite chr_ok_exact in Hsep|].
  change (String c (w2 +:+ rest)) with (String c w2 +:+ rest).
  rewrite consumed_app.
  change ("chain" +:+ String sep (String c (w2 +:+ rest)))
    with (("chain" +:+ String sep (String c w2)) +:+ rest) in Hs.
  apply append_inv_r in Hs as ->. done.
Qed.

(** C10.  When the first match of the chain-identifier pattern in a
    response text is chain-<token> or chain_<token>, the state's
    chain_id is <token>, without the prefix; so is the chain_id of the
    state that parse_prompt_engine_response returns. *)
Theorem chain_id_is_token (content : string) (m : match_obj) (token : string) :
  search false chain_re content = Some m ->
  group m 0 = "chain-" +:+ token \/ group m 0 = "chain_" +:+ token ->
  chain_id (detected_state content) = token
  /\ forall state,
       parse_prompt_engine_response content = Some state ->
       chain_id state = token.
Proof.
  intros Hsearch Hgroup.
  assert (chain_id (detected_state content) = token) as Hid.
  { unfold detected_state. simpl. rewrite Hsearch.
    apply search_Some in Hsearch as (pre & s & _ & Hm).
    apply chain_match_shape in Hm as (sep & tok & _ & ->).
    simpl in *. by destruct Hgroup as [[= _ ->] | [= _ ->]]. }
  split; [done|]. intros state.
  unfold parse_prompt_engine_response.
  destruct (_ || _); [|done]. by intros [= <-].
Qed.

End ChainClaims.

Section StepClaims.
Import Str Re SessionState Markers.

Lemma consumed_one (c : ascii) (s : string) : consumed (String c s) s = String c "".
Proof. apply (consumed_app (String c "") s). Qed.

Lemma step_marker_groups lead sep s m :
  lead ∈ step_words -> sep ∈ step_separators ->
  match_here false step_re s = Some m ->
  group m 0 = lead +:+ " 2" +:+ sep +:+ "5" ->
  group m 1 = "2" /\ group m 2 = "5".
Proof.
  intros Hlead Hsep (caps & w & rest & Hhead & -> & ->)%match_here_Some Hw.
  unfold group in Hw. simpl in Hw. subst w. revert Hhead.
  unfold step_words, step_separators in *.
  repeat (apply elem_of_cons in Hlead as [-> | Hlead]);
    [..|by apply elem_of_nil in Hlead];
    (repeat (apply elem_of_cons in Hsep as [-> | Hsep]);
     [..|by apply elem_of_nil in Hsep]);
    unfold step_re; cbv [String.append]; re_eval;
    destruct (star_greedy_head (chr_ok false Chars.is_digit) rest) as [l ->];
    re_eval;
    intros [= <- Hrest]; rewrite Hrest; unfold group; simpl;
    by rewrite !consumed_one.
Qed.

Lemma one_of_two a b c :
  Chars.one_of (String a (String b "")) c = true -> c = a \/ c = b.
Proof.
  unfold Chars.one_of. simpl. rewrite orb_false_r.
  intros [H|H]%orb_true_iff; apply Ascii.eqb_eq in H; auto.
Qed.

(** Whatever the step pattern matches begins with one of its four leading
    words. *)
Lemma step_match_leading_word s m :
  match_here false step_re s = Some m ->
  exists lead tail, lead ∈ step_words /\ group m 0 = lead +:+ tail.
Proof.
  intros (caps & w & rest & Hhead%head_elem & -> & ->)%match_here_Some.
  unfold step_re in Hhead.
  apply elem_seq in Hhead as (caps1 & s1 & Hword & Hrest).
  apply re_match_suffix in Hrest as [w1 ->].
  assert (exists lead, lead ∈ step_words /\ w +:+ rest = lead +:+ w1 +:+ rest)
    as (lead & Hlead & Heq).
  { apply elem_alt in Hword as [Hword|Hword];
      apply elem_seq in Hword as (caps2 & s2 & Hc & Hl);
      apply elem_chr in Hc as (c & -> & Hc & _);
      apply elem_lit in Hl as [-> _];
      rewrite chr_ok_exact in Hc; apply one_of_two in Hc as [-> | ->].
    - exists "Step". split; [|done]. apply list_elem_of_here.
    - exists "step". split; [|done]. do 1 apply list_elem_of_further. apply list_elem_of_here.
    - exists "Progress". split; [|done]. do 2 apply list_elem_of_further. apply list_elem_of_here.
    - exists "progress". split; [|done]. do 3 apply list_elem_of_further. apply list_elem_of_here. }
  exists lead, w1. split; [done|].
  rewrite <- append_assoc in Heq. by apply append_inv_r in Heq.
Qed.

(** C6 (amended).  The first match of the step pattern in a response
    text decides the state: its two numbers are current_step and
    total_steps, whatever markers follow.  The match begins with Step,
    step, Progress or progress (the first letter in either case, the
    others in lower case).  When it is "Step 2 of 5" (or the same with
    another of the four words, or with "/" as the separator),
    parse_prompt_engine_response returns a state with current_step 2 and
    total_steps 5. *)
Theorem first_step_marker_wins (content : string) (m : match_obj) :
  search false step_re content = Some m ->
  (exists lead tail, lead ∈ step_words /\ group m 0 = lead +:+ tail)
  /\ current_step (detected_state content) = Str.int (group m 1)
  /\ total_steps (detected_state content) = Str.int (group m 2)
  /\ forall lead sep,
       lead ∈ step_words -> sep ∈ step_separators ->
       group m 0 = lead +:+ " 2" +:+ sep +:+ "5" ->
       exists state,
         parse_prompt_engine_response content = Some state
         /\ current_step state = 2 /\ total_steps state = 5.
Proof.
  intros Hsearch.
  pose proof Hsearch as (pre & s & _ & Hm)%search_Some.
  split; [by eapply step_match_leading_word|].
  assert (current_step (detected_state content) = Str.int (group m 1)
          /\ total_steps (detected_state content) = Str.int (group m 2))
    as [Hcur Htot].
  { unfold detected_state. cbn [current_step total_steps]. by rewrite Hsearch. }
  do 2 (split; [done|]).
  intros lead sep Hlead Hsep Hgroup.
  destruct (step_marker_groups lead sep s m) as [H1 H2]; [done..|].
  exists (detected_state content).
  unfold parse_prompt_engine_response.
  rewrite Hcur, Htot, H1, H2. done.
Qed.

End StepClaims.

Section VerdictClaims.
Import Str Re SessionState GateEnforce Markers.

Lemma chr_ok_space ic c : chr_ok ic Chars.is_space c = Chars.is_space c.
Proof.
  destruct ic; [|apply chr_ok_exact].
  by destruct c as [[] [] [] [] [] [] [] []].
Qed.

Lemma chr_ok_not_newline ic c : chr_ok ic Chars.not_newline c = Chars.not_newline c.
Proof.
  destruct ic; [|apply chr_ok_exact].
  by destruct c as [[] [] [] [] [] [] [] []].
Qed.

Lemma strip_cons_space c s : Chars.is_space c = true -> strip (String c s) = strip s.
Proof.
  intros Hc. unfold strip. simpl.
  destruct (rstrip s); simpl; by rewrite Hc.
Qed.

Lemma drop_while_all_nil f s : all f s = true -> drop_while f s = "".
Proof.
  intros H. rewrite <- (append_nil_r s). by rewrite drop_while_all.
Qed.

Lemma star_seq_cons ic p r c s caps :
  re_match ic (Seq (Star true p) r) (String c s) caps =
    if chr_ok ic p c
    then re_match ic (Seq (Star true p) r) s caps ++ re_match ic r (String c s) caps
    else re_match ic r (String c s) caps.
Proof.
  simpl. destruct (chr_ok ic p c); simpl.
  - rewrite fmap_app, bind_app. simpl. by rewrite app_nil_r.
  - by rewrite app_nil_r.
Qed.

(** [(.+)] on a non-empty line takes the whole line first. *)
Lemma group_dot_plus ic caps s :
  all Chars.not_newline s = true -> s <> "" ->
  exists l,
    re_match ic (Group (Plus true Chars.not_newline)) s caps = (caps ++ [s], "") :: l.
Proof.
  destruct s as [|c s]; [done|]. intros Hall _.
  simpl in Hall. apply andb_true_iff in Hall as [Hc Hs].
  cbn [re_match Plus]. rewrite chr_ok_not_newline, Hc.
  cbn [mbind list_bind fmap list_fmap app]. rewrite app_nil_r.
  destruct (star_greedy_head (chr_ok ic Chars.not_newline) s) as [l ->].
  rewrite drop_while_all_nil.
  - simpl. rewrite consumed_all. by eexists.
  - clear -Hs. induction s as [|d s IH]; [done|].
    simpl in *. apply andb_true_iff in Hs as [Hd Hs].
    by rewrite chr_ok_not_newline, Hd, IH.
Qed.

(** [\s*(.+)] on a non-empty line captures a text whose strip is the
    strip of the line. *)
Lemma space_then_text ic caps s :
  all Chars.not_newline s = true -> s <> "" ->
  exists g l,
    re_match ic (Seq (Star true Chars.is_space) (Group (Plus true Chars.not_newline)))
      s caps = (caps ++ [g], "") :: l
    /\ strip g = strip s.
Proof.
  induction s as [|c s IH]; [done|]. intros Hall _.
  rewrite star_seq_cons, chr_ok_space.
  destruct (group_dot_plus ic caps (String c s)) as [l Hl]; [done..|].
  destruct (Chars.is_space c) eqn:Hc; [|by exists (String c s), l].
  simpl in Hall. apply andb_true_iff in Hall as [_ Hall].
  destruct s as [|d s].
  - exists (String c ""), l. split; [|done]. by rewrite <- Hl.
  - destruct IH as (g & l' & -> & Hg); [done..|].
    exists g, (l' ++ re_match ic (Group (Plus true Chars.not_newline))
                       (String c (String d s)) caps).
    split; [done|]. by rewrite strip_cons_space.
Qed.

Lemma reason_match_here sep text :
  sep ∈ fail_separators ->
  all Chars.not_newline text = true ->
  exists g0 g,
    match_here true reason_re ("FAIL" +:+ sep +:+ text) = Some [g0; g]
    /\ strip g = strip text.
Proof.
  intros Hsep Hall. unfold match_here, reason_re, fail_separators in *.
  remember (Seq (Star true Chars.is_space) (Group (Plus true Chars.not_newline)))
    as tail eqn:Htail.
  repeat (apply elem_of_cons in Hsep as [-> | Hsep]);
    [..|by apply elem_of_nil in Hsep];
    cbv [String.append]; re_eval; subst tail;
    (destruct (space_then_text true [] (String " " text)) as (g & l & -> & Hg);
       [done..|]);
    simpl; (eexists _, g); (split; [done|]);
    by rewrite Hg, strip_cons_space.
Qed.

(** The reason echoed for a verdict of a documented form. *)
Lemma fail_reason_form sep text :
  sep ∈ fail_separators ->
  all Chars.not_newline text = true ->
  fail_reason ("GATE_REVIEW: FAIL" +:+ sep +:+ text) = strip text.
Proof.
  intros Hsep Hall. unfold fail_reason.
  destruct (reason_match_here sep text Hsep Hall) as (g0 & g & Hm & Hg).
  change ("GATE_REVIEW: FAIL" +:+ sep +:+ text)
    with ("GATE_REVIEW: " +:+ "FAIL" +:+ sep +:+ text).
  remember ("FAIL" +:+ sep +:+ text) as s eqn:Hs.
  cbv [String.append].
  do 13 (rewrite search_skip by (unfold match_here, reason_re; re_eval; done)).
  by rewrite (search_here _ _ _ _ Hm).
Qed.

(** C2.  An invocation of a prompt-execution tool whose gate_verdict is
    present and matches GATE_REVIEW:\s*FAIL (in any case) is denied.  The
    denial reason echoes the stripped text captured after "FAIL -" or
    "FAIL:" when the reason pattern matches the verdict, and
    "unspecified" when it does not; for a verdict
    "GATE_REVIEW: FAIL - <text>" or "GATE_REVIEW: FAIL: <text>" with a
    one-line text, the echo is the stripped text. *)
Theorem fail_verdict_denied (fs : storage) (input : hook_input) (verdict : string) :
  Str.contains "prompt_engine" (tool_name input) = true ->
  get (tool_input input) "gate_verdict" = verdict ->
  verdict <> "" ->
  is_Some (search true fail_re verdict) ->
  main fs input = Deny (gate_failed_text (fail_reason verdict))
  /\ Contains (fail_reason verdict) (gate_failed_text (fail_reason verdict))
  /\ (forall m, search true reason_re verdict = Some m ->
                fail_reason verdict = strip (group m 1))
  /\ (search true reason_re verdict = None -> fail_reason verdict = "unspecified")
  /\ (forall sep text,
        sep ∈ fail_separators -> all Chars.not_newline text = true ->
        verdict = "GATE_REVIEW: FAIL" +:+ sep +:+ text ->
        fail_reason verdict = strip text).
Proof.
  intros Htool Hget Hne [m Hfail]. repeat split.
  - rewrite main_prompt_engine by done. rewrite Hget.
    unfold check_fail_verdict. apply truthy_true in Hne. by rewrite Hne, Hfail.
  - by exists "Gate failed: ",
      ". Review the gate criteria and retry with improvements. Resubmit with GATE_REVIEW: PASS once criteria are met.".
  - intros m' Hm. unfold fail_reason. by rewrite Hm.
  - intros Hm. unfold fail_reason. by rewrite Hm.
  - intros sep text Hsep Hall ->. by apply fail_reason_form.
Qed.

End VerdictClaims.

Section CriteriaClaims.
Import Str Re SessionState Bullets.

(** A lazy repetition over a line stops at the line's end when what
    follows the repetition fails before that. *)
Lemma star_lazy_line {B : Type} ic (k : string -> list B) (x tail : string) :
  all Chars.not_newline x = true ->
  (forall pre y, x = pre +:+ y -> y <> "" -> k (y +:+ nl +:+ tail) = []) ->
  star_lazy (chr_ok ic Chars.not_newline) (x +:+ nl +:+ tail) ≫= k
  = k (nl +:+ tail).
Proof.
  induction x as [|d x IH]; intros Hall Hk.
  - change ("" +:+ nl +:+ tail) with (String "010" tail).
    cbn [star_lazy]. rewrite chr_ok_not_newline.
    change (Chars.not_newline "010") with false. cbv iota.
    by rewrite bind_singleton.
  - simpl in Hall. apply andb_true_iff in Hall as [Hd Hall].
    rewrite append_cons. cbn [star_lazy]. rewrite chr_ok_not_newline, Hd.
    rewrite bind_cons.
    rewrite <- append_cons, (Hk "" (String d x)) by done.
    rewrite IH; [done..|].
    intros pre y -> Hy. by apply (Hk (String d pre) y).
Qed.

Lemma line_end_fails caps y tail :
  all Chars.not_newline y = true -> y <> "" ->
  re_match false (Alt (Lit nl) Eos) (y +:+ nl +:+ tail) caps = [].
Proof.
  destruct y as [|d y]; [done|]. intros Hall _.
  simpl in Hall. apply andb_true_iff in Hall as [Hd _].
  rewrite append_cons. cbn [re_match lit_match nl].
  assert (chr_eq false "010" d = false) as ->.
  { unfold chr_eq. rewrite chr_ok_exact.
    apply not_true_iff_false. intros H%Ascii.eqb_eq. subst d.
    by vm_compute in Hd. }
  cbn [fmap list_fmap app at_end]. by destruct y.
Qed.

Lemma all_app f a b : all f (a +:+ b) = all f a && all f b.
Proof.
  induction a as [|c a IH]; [done|].
  rewrite append_cons. simpl. by rewrite IH, andb_assoc.
Qed.

(** [(.+?)(?:\n|$)] on a line captures the line. *)
Lemma line_tail caps item rest :
  all Chars.not_newline item = true -> item <> "" ->
  exists l,
    re_match false
      (Seq (Group (Plus false Chars.not_newline)) (Alt (Lit nl) Eos))
      (item +:+ nl +:+ rest) caps
    = (caps ++ [item], rest) :: l.
Proof.
  destruct item as [|c item]; [done|]. intros Hall _.
  simpl in Hall. apply andb_true_iff in Hall as [Hc Hall].
  rewrite append_cons. cbn [re_match Plus].
  rewrite chr_ok_exact, Hc.
  cbn [mbind list_bind fmap list_fmap app]. rewrite app_nil_r.
  rewrite !list_fmap_bind.
  rewrite (star_lazy_line false); [|done|].
  - cbn -[consumed re_match].
    change (String c (item +:+ nl +:+ rest))
      with (String c item +:+ (nl +:+ rest)).
    rewrite consumed_app. cbn. by eexists.
  - intros pre y -> Hy. cbn -[consumed re_match].
    apply line_end_fails; [|done].
    rewrite all_app in Hall. by apply andb_true_iff in Hall as [_ ?].
Qed.

(** [\s*(.+?)(?:\n|$)] in front of white space and an item captures the
    item. *)
Lemma spaces_then_line caps pad item rest :
  all Chars.is_space pad = true -> item_ok item ->
  exists l,
    re_match false
      (Seq (Star true Chars.is_space)
         (Seq (Group (Plus false Chars.not_newline)) (Alt (Lit nl) Eos)))
      (pad +:+ item +:+ nl +:+ rest) caps
    = (caps ++ [item], rest) :: l.
Proof.
  intros Hpad [Hfirst Hall]. induction pad as [|p pad IH].
  - destruct item as [|c item]; [done|].
    change ("" +:+ String c item +:+ nl +:+ rest)
      with (String c (item +:+ nl +:+ rest)).
    rewrite star_seq_cons, chr_ok_exact, Hfirst.
    apply (line_tail caps (String c item) rest); done.
  - cbn [all] in Hpad. apply andb_true_iff in Hpad as [Hp Hpad].
    rewrite append_cons, star_seq_cons, chr_ok_exact, Hp.
    destruct (IH Hpad) as [l ->]. by eexists.
Qed.

Lemma criteria_match_item marker pad item rest :
  piece_ok (Item marker pad item) ->
  match_here false criteria_re (marker +:+ pad +:+ item +:+ nl +:+ rest)
  = Some [marker +:+ pad +:+ item +:+ nl; item].
Proof.
  intros (Hmarker & Hpad & Hitem).
  assert (consumed (marker +:+ pad +:+ item +:+ nl +:+ rest) rest
          = marker +:+ pad +:+ item +:+ nl) as Hconsumed.
  { replace (marker +:+ pad +:+ item +:+ nl +:+ rest)
      with ((marker +:+ pad +:+ item +:+ nl) +:+ rest)
      by (by rewrite !append_assoc).
    apply consumed_app. }
  revert Hconsumed. unfold match_here, criteria_re.
  remember (Seq (Star true Chars.is_space)
              (Seq (Group (Plus false Chars.not_newline)) (Alt (Lit nl) Eos)))
    as spaces eqn:Hspaces.
  destruct (spaces_then_line [] pad item rest Hpad Hitem) as [l Hl].
  rewrite <- Hspaces in Hl.
  destruct Hmarker as [-> | ->].
  - change ("-" +:+ pad +:+ item +:+ nl +:+ rest)
      with (String "-" (pad +:+ item +:+ nl +:+ rest)).
    cbn [re_match lit_match]. eval_chr.
    cbn [mbind list_bind fmap list_fmap app]. rewrite ?app_nil_r, Hl.
    by intros ->.
  - change ("•" +:+ pad +:+ item +:+ nl +:+ rest)
      with (String "226" (String "128" (String "162" (pad +:+ item +:+ nl +:+ rest)))).
    cbn [re_match lit_match]. eval_chr.
    cbn [mbind list_bind fmap list_fmap app]. rewrite ?app_nil_r, Hl.
    by intros ->.
Qed.

Lemma criteria_no_match c s :
  bullet_free (String c "") = true ->
  match_here false criteria_re (String c s) = None.
Proof.
  unfold bullet_free. simpl. rewrite andb_true_r.
  intros [H1 H2]%andb_true_iff.
  apply negb_true_iff in H1, H2.
  unfold match_here, criteria_re. cbn [re_match lit_match].
  unfold chr_eq. rewrite !chr_ok_exact.
  rewrite (Ascii.eqb_sym "-"), H1, (Ascii.eqb_sym "226"), H2. done.
Qed.

Lemma findall_from_skip ic r w s :
  findall_from ic r (w +:+ s) (String.length w) = findall_from ic r s 0.
Proof. induction w as [|c w IH]; [done|]. rewrite append_cons. simpl. done. Qed.

Lemma findall_header header s :
  bullet_free header = true ->
  findall false criteria_re (header +:+ s) = findall false criteria_re s.
Proof.
  unfold findall. induction header as [|c h IH]; [done|].
  intros Hb. unfold bullet_free in Hb. cbn [all] in Hb.
  apply andb_true_iff in Hb as [Hc Hh].
  rewrite append_cons. cbn [findall_from].
  rewrite criteria_no_match; [by apply IH|].
  unfold bullet_free. cbn [all]. by rewrite Hc.
Qed.

(** After a match the scan resumes behind it. *)
Lemma findall_match ic r s m rest :
  match_here ic r s = Some m ->
  s = group m 0 +:+ rest ->
  group m 0 <> "" ->
  findall_from ic r s 0 = group m 1 :: findall_from ic r rest 0.
Proof.
  intros Hm Hs Hne. destruct (group m 0) as [|c g0] eqn:Hg0; [done|].
  rewrite append_cons in Hs. subst s.
  cbn [findall_from]. rewrite Hm, Hg0. f_equal.
  apply findall_from_skip.
Qed.

Lemma findall_render doc :
  Forall piece_ok doc ->
  findall false criteria_re (render doc) = items_of doc.
Proof.
  induction 1 as [|[text|marker pad item] doc Hp _ IH]; [done|..];
    cbn [render render_piece].
  - by rewrite findall_header.
  - unfold findall.
    rewrite (findall_match false criteria_re _
               [marker +:+ pad +:+ item +:+ nl; item] (render doc)).
    + cbn. f_equal. apply IH.
    + replace ((marker +:+ pad +:+ item +:+ nl) +:+ render doc)
        with (marker +:+ pad +:+ item +:+ nl +:+ render doc)
        by (by rewrite !append_assoc).
      by apply criteria_match_item.
    + done.
    + destruct Hp as [[-> | ->] _]; done.
Qed.

End CriteriaClaims.

Section CriteriaTheorem.
Import Str Re SessionState Bullets.

Lemma item_strip_truthy item : item_ok item -> truthy (strip item) = true.
Proof.
  intros [Hfirst _]. destruct item as [|c item]; [done|].
  unfold strip. simpl.
  destruct (rstrip item); rewrite ?Hfirst; simpl; by rewrite Hfirst.
Qed.

Lemma filter_all {A} (P : A -> Prop) `{forall x, Decision (P x)} (l : list A) :
  Forall P l -> filter P l = l.
Proof.
  induction 1 as [|x l Hx _ IH]; [done|].
  rewrite filter_cons_True by done. by rewrite IH.
Qed.

(** Never more than five criteria. *)
Lemma gate_criteria_at_most_five content :
  (length (gate_criteria (detected_state content)) <= 5)%nat.
Proof.
  unfold detected_state. cbn [gate_criteria].
  destruct (_ || _); [|simpl; lia].
  rewrite length_fmap.
  etransitivity; [apply length_filter|]. rewrite length_take. lia.
Qed.

(** C7 (amended).  In a gate-bearing response text whose dashes and
    bullets are the markers of items (a marker, white space, a non-blank
    one-line item, a newline), gate_criteria is the first five items,
    trimmed; with five or more items (seven, say) it has exactly five
    entries.  For any text it is the first five matches of the criteria
    pattern, trimmed, without the blank ones, and so has at most five
    entries. *)
Theorem criteria_of_bullet_items (doc : list piece) :
  Forall piece_ok doc ->
  Str.contains "## Inline Gates" (render doc) || Str.contains "Gate" (render doc) = true ->
  gate_criteria (detected_state (render doc)) = strip <$> take 5 (items_of doc)
  /\ ((5 <= length (items_of doc))%nat ->
      length (gate_criteria (detected_state (render doc))) = 5%nat)
  /\ (forall content,
        Str.contains "## Inline Gates" content || Str.contains "Gate" content = true ->
        gate_criteria (detected_state content)
        = strip <$> filter (fun c => truthy (strip c) = true)
                      (take 5 (findall false criteria_re content)))
  /\ (forall content, (length (gate_criteria (detected_state content)) <= 5)%nat).
Proof.
  intros Hdoc Hgated.
  assert (forall content,
            Str.contains "## Inline Gates" content || Str.contains "Gate" content = true ->
            gate_criteria (detected_state content)
            = strip <$> filter (fun c => truthy (strip c) = true)
                          (take 5 (findall false criteria_re content)))
    as Hgeneral.
  { intros content Hc. unfold detected_state. cbn [gate_criteria]. by rewrite Hc. }
  assert (gate_criteria (detected_state (render doc))
          = strip <$> take 5 (items_of doc)) as Hcriteria.
  { rewrite Hgeneral, findall_render by done.
    f_equal. apply filter_all.
    eapply Forall_impl; [apply Forall_take|apply item_strip_truthy].
    clear Hgated. induction Hdoc as [|[text|marker pad item] doc Hp _ IH]; cbn.
    - constructor.
    - done.
    - constructor; [apply Hp|done]. }
  split; [done|]. split.
  { intros Hlen. rewrite Hcriteria, length_fmap, length_take. lia. }
  split; [done|]. apply gate_criteria_at_most_five.
Qed.

End CriteriaTheorem.

Section GateClaims.
Import Re SessionState GateEnforce.

(** C1 (amended).  An invocation of a prompt-execution tool with a
    chain_id, no gate_verdict and a non-empty session identifier, whose
    stored session state has a non-empty pending_gate, is denied, and the
    denial reason quotes the stored gate name. *)
Theorem pending_gate_without_verdict_denied
    (fs : storage) (input : hook_input) (state : ChainState) (gate : string) :
  Str.contains "prompt_engine" (tool_name input) = true ->
  get (tool_input input) "chain_id" <> "" ->
  get (tool_input input) "gate_verdict" = "" ->
  session_id input <> "" ->
  load_session_state fs (session_id input) = Return (Some state) ->
  pending_gate state = Some gate ->
  gate <> "" ->
  main fs input = Deny (pending_gate_text gate)
  /\ Str.Contains gate (pending_gate_text gate).
Proof.
  intros Htool Hchain Hverdict Hsid Hload Hgate Hne.
  split;
    [|by exists "Chain resume requires gate verdict. Pending gate: ",
                ". Include gate_verdict: GATE_REVIEW: PASS|FAIL - <reason>"].
  rewrite main_prompt_engine by done.
  rewrite Hverdict. cbn [check_fail_verdict Str.truthy].
  unfold check_pending_gate.
  apply truthy_true in Hchain, Hsid, Hne.
  rewrite Hchain, Hsid, Hload, Hgate, Hne. done.
Qed.

(** C3 (amended).  An invocation whose gate_verdict is present and does
    not match the FAIL pattern, and which has no chain_id or has a
    user_response, is allowed (whatever the stored session state). *)
Theorem passing_verdict_allowed (fs : storage) (input : hook_input) :
  get (tool_input input) "gate_verdict" <> "" ->
  search true fail_re (get (tool_input input) "gate_verdict") = None ->
  get (tool_input input) "chain_id" = ""
    \/ get (tool_input input) "user_response" <> "" ->
  main fs input = Allow.
Proof.
  intros Hverdict Hfail Hrest. unfold main.
  destruct (negb _); [done|].
  apply truthy_true in Hverdict.
  unfold check_fail_verdict. rewrite Hverdict, Hfail.
  rewrite check_pending_gate_verdict by done.
  destruct Hrest as [-> | Hresp]; [done|].
  apply truthy_true in Hresp. rewrite Hresp.
  by rewrite andb_false_r.
Qed.

(** C4.  An invocation of a prompt-execution tool with a chain_id and no
    user_response, for which neither the FAIL-verdict check nor the
    pending-gate check fired, is denied with the instruction to include
    the previous step's output as user_response; this holds in
    particular when no state was ever recorded for the session. *)
Theorem missing_user_response_denied (fs : storage) (input : hook_input) :
  Str.contains "prompt_engine" (tool_name input) = true ->
  get (tool_input input) "chain_id" <> "" ->
  get (tool_input input) "user_response" = "" ->
  check_fail_verdict (get (tool_input input) "gate_verdict") = None ->
  check_pending_gate fs (session_id input)
     (get (tool_input input) "chain_id")
     (get (tool_input input) "gate_verdict") = Return None
  \/ fs !! session_id input = None ->
  main fs input = Deny user_response_text
  /\ Str.Contains "Include user_response parameter" user_response_text.
Proof.
  intros Htool Hchain Hresp Hfail Hpending.
  split;
    [|by exists "Chain resume requires user_response with your output from the previous step. ",
                " with the work completed."].
  rewrite main_prompt_engine by done.
  rewrite Hfail, Hresp.
  apply truthy_true in Hchain.
  assert (check_pending_gate fs (session_id input)
            (get (tool_input input) "chain_id")
            (get (tool_input input) "gate_verdict") = Return None) as ->.
  { destruct Hpending as [? | Hnone]; [done|].
    unfold check_pending_gate, load_session_state, path_exists.
    rewrite Hnone.
    destruct (_ && _); [|done]. by destruct (Str.truthy (session_id input)). }
  by rewrite Hchain.
Qed.

End GateClaims.

Section StoreClaims.
Import Re SessionState.

Lemma search_none ic r (f : ascii -> bool) s :
  (forall c s', f c = true -> match_here ic r (String c s') = None) ->
  match_here ic r "" = None ->
  Str.all f s = true ->
  search ic r s = None.
Proof.
  intros Hcons Hnil. induction s as [|c s IH]; cbn [search Str.all].
  - by rewrite Hnil.
  - intros [Hc Hs]%andb_true_iff. rewrite Hcons by done. by apply IH.
Qed.

Lemma findall_none ic r (f : ascii -> bool) s :
  (forall c s', f c = true -> match_here ic r (String c s') = None) ->
  match_here ic r "" = None ->
  Str.all f s = true ->
  findall ic r s = [].
Proof.
  intros Hcons Hnil. unfold findall.
  induction s as [|c s IH]; cbn [findall_from Str.all].
  - by rewrite Hnil.
  - intros [Hc Hs]%andb_true_iff. rewrite Hcons by done. by apply IH.
Qed.

(** A text without S, s, P, p and # holds no step marker and no gate
    heading: nothing is returned for it. *)
Lemma plain_text_no_state (content : string) :
  Markers.plain content = true ->
  parse_prompt_engine_response content = None.
Proof.
  intros Hplain.
  assert (forall c, negb (Chars.one_of "SsPp#" c) = true ->
            Chars.one_of "Ss" c = false /\ Chars.one_of "Pp" c = false
            /\ Ascii.eqb "#" c = false) as Hclasses.
  { intros c Hc. apply negb_true_iff in Hc. unfold Chars.one_of in *.
    cbn [existsb list_ascii_of_string] in Hc |- *.
    apply orb_false_iff in Hc as [HS Hc]. apply orb_false_iff in Hc as [Hs Hc].
    apply orb_false_iff in Hc as [HP Hc]. apply orb_false_iff in Hc as [Hp Hc].
    apply orb_false_iff in Hc as [Hh _].
    by rewrite HS, Hs, HP, Hp, (Ascii.eqb_sym "#"), Hh. }
  unfold parse_prompt_engine_response, detected_state.
  cbn [current_step pending_gate].
  rewrite (search_none false step_re
             (fun c => negb (Chars.one_of "SsPp#" c)) content),
          (findall_none false gate_name_re
             (fun c => negb (Chars.one_of "SsPp#" c)) content);
    [by destruct (Str.contains _ _ || Str.contains _ _)|try done..].
  - intros c s' (_ & _ & Hc)%Hclasses.
    unfold match_here, gate_name_re. cbn [re_match lit_match].
    unfold chr_eq. by rewrite chr_ok_exact, Hc.
  - intros c s' (Hs & Hp & _)%Hclasses.
    unfold match_here, step_re. cbn [re_match].
    by rewrite !chr_ok_exact, Hs, Hp.
Qed.

(** C5.  When the scan of a response text finds no step
    (current_step 0) and no pending gate, parse_prompt_engine_response
    returns None, and the post-tool hook given that text leaves the
    storage as it is and prints nothing. *)
Theorem no_signal_no_update (content : string) :
  current_step (detected_state content) = 0 ->
  gate_truthy (pending_gate (detected_state content)) = false ->
  parse_prompt_engine_response content = None
  /\ forall (fs : storage) (input : PostPromptEngine.hook_input),
      PostPromptEngine.content_of (PostPromptEngine.response input) = content ->
      PostPromptEngine.main fs input = (fs, None).
Proof.
  intros Hstep Hgate.
  assert (parse_prompt_engine_response content = None) as Hparse.
  { unfold parse_prompt_engine_response. by rewrite Hstep, Hgate. }
  split; [done|]. intros fs input Hcontent.
  unfold PostPromptEngine.main. rewrite Hcontent, Hparse.
  by destruct (negb _).
Qed.

(** A missing record, one that cannot be opened and one that is not
    JSON all load as None. *)
Lemma load_absent_or_rejected (fs : storage) (session_id : string) :
  fs !! session_id = None \/ fs !! session_id = Some Inaccessible
    \/ fs !! session_id = Some Malformed ->
  load_session_state fs session_id = Return None.
Proof.
  unfold load_session_state, path_exists, open_json_load.
  intros [H|[H|H]]; rewrite H; try done.
Qed.

Lemma load_json (fs : storage) (session_id : string) (state : ChainState) :
  fs !! session_id = Some (Json state) ->
  load_session_state fs session_id = Return (Some state).
Proof.
  unfold load_session_state, path_exists, open_json_load.
  by intros ->.
Qed.

(** A cleared record loads as None. *)
Lemma load_after_clear (fs : storage) (session_id : string) :
  load_session_state (clear_session_state fs session_id) session_id = Return None.
Proof.
  apply load_absent_or_rejected. left.
  unfold clear_session_state, path_exists.
  case_bool_decide as Hsome.
  - apply lookup_delete_eq.
  - by apply eq_None_not_Some.
Qed.

(** C8 (at the failing input).  A record whose bytes are not text in the
    file's encoding makes load_session_state raise UnicodeDecodeError,
    which its except clause does not catch. *)
Theorem load_undecodable_raises (fs : storage) (session_id : string) :
  fs !! session_id = Some Undecodable ->
  load_session_state fs session_id = Raise UnicodeDecodeError.
Proof.
  unfold load_session_state, path_exists, open_json_load.
  by intros ->.
Qed.

(** C9 (amended).  save_session_state overwrites the record in place:
    opening the file truncates it and the new text is written
    afterwards.  A load between the two finds a record that is not yet
    JSON and returns None; a load after the save returns the saved
    state; the records of other sessions are the same throughout. *)
Theorem save_in_place (fs : storage) (session_id : string) (state : ChainState) :
  fs !! session_id <> Some Inaccessible ->
  exists during after,
    save_trace fs session_id state = [during; after]
    /\ save_session_state fs session_id state = after
    /\ load_session_state during session_id = Return None
    /\ load_session_state after session_id = Return (Some state)
    /\ forall other, other <> session_id ->
         during !! other = fs !! other /\ after !! other = fs !! other.
Proof.
  intros Hfs.
  exists (<[session_id := Malformed]> fs), (<[session_id := Json state]> fs).
  assert (save_trace fs session_id state =
            [<[session_id := Malformed]> fs; <[session_id := Json state]> fs]) as Htrace.
  { unfold save_trace. destruct (fs !! session_id) as [[]|]; done. }
  split; [done|]. split.
  { unfold save_session_state. by rewrite Htrace. }
  split.
  { apply load_absent_or_rejected. right; right. apply lookup_insert_eq. }
  split.
  { apply load_json, lookup_insert_eq. }
  intros other Hother. by rewrite !lookup_insert_ne.
Qed.

End StoreClaims.

(** ** Instances and counterexamples *)

Section Instances.
Import Str Re SessionState GateEnforce Bullets Markers Samples.

Lemma pending_gate_without_verdict_denied_witness :
  (Str.contains "prompt_engine" (tool_name resume_call) = true
   /\ get (tool_input resume_call) "chain_id" <> ""
   /\ get (tool_input resume_call) "gate_verdict" = ""
   /\ session_id resume_call <> ""
   /\ load_session_state stored_review (session_id resume_call)
      = Return (Some review_state)
   /\ pending_gate review_state = Some "Security Review")
  /\ main stored_review resume_call = Deny (pending_gate_text "Security Review")
  /\ Contains "Security Review" (pending_gate_text "Security Review").
Proof.
  split; [by vm_compute|].
  by apply (pending_gate_without_verdict_denied stored_review resume_call
              review_state "Security Review").
Defined.

(** C1, as stated, at an invocation without a session identifier: the
    record stored under the empty identifier has a pending gate, the
    call has a chain_id and no gate_verdict, and it is allowed. *)
Lemma pending_gate_empty_session_counterexample :
  Str.contains "prompt_engine" (tool_name anonymous_call) = true
  /\ get (tool_input anonymous_call) "chain_id" = "review"
  /\ get (tool_input anonymous_call) "gate_verdict" = ""
  /\ load_session_state stored_anonymous (session_id anonymous_call)
     = Return (Some review_state)
  /\ pending_gate review_state = Some "Security Review"
  /\ main stored_anonymous anonymous_call = Allow.
Proof. by vm_compute. Qed.

Lemma fail_verdict_denied_witness :
  (Str.contains "prompt_engine" (tool_name failed_call) = true
   /\ get (tool_input failed_call) "gate_verdict" = fail_verdict
   /\ fail_verdict <> ""
   /\ is_Some (search true fail_re fail_verdict))
  /\ main ∅ failed_call = Deny (gate_failed_text (fail_reason fail_verdict))
  /\ Contains (fail_reason fail_verdict) (gate_failed_text (fail_reason fail_verdict))
  /\ (forall m, search true reason_re fail_verdict = Some m ->
                fail_reason fail_verdict = strip (group m 1))
  /\ (search true reason_re fail_verdict = None ->
      fail_reason fail_verdict = "unspecified")
  /\ (forall sep text,
        sep ∈ fail_separators -> all Chars.not_newline text = true ->
        fail_verdict = "GATE_REVIEW: FAIL" +:+ sep +:+ text ->
        fail_reason fail_verdict = strip text).
Proof.
  assert (is_Some (search true fail_re fail_verdict)) as Hfail
    by (by vm_compute; eexists).
  split; [done|].
  by apply (fail_verdict_denied ∅ failed_call fail_verdict).
Defined.

(** The documented verdict: the reason text holds "missing tests". *)
Lemma fail_verdict_missing_tests :
  main ∅ failed_call
  = Deny "Gate failed: missing tests. Review the gate criteria and retry with improvements. Resubmit with GATE_REVIEW: PASS once criteria are met.".
Proof. by vm_compute. Qed.

(** A verdict whose text behind the dash is blank: the reason pattern
    still matches, and the echoed reason is empty. *)
Lemma fail_verdict_blank_reason :
  fail_reason "GATE_REVIEW: FAIL - " = ""
  /\ fail_reason "GATE_REVIEW: FAIL -" = "unspecified"
  /\ fail_reason "GATE_REVIEW: FAIL" = "unspecified".
Proof. by vm_compute. Qed.

Lemma passing_verdict_allowed_witness :
  (get (tool_input passed_call) "gate_verdict" <> ""
   /\ search true fail_re (get (tool_input passed_call) "gate_verdict") = None
   /\ get (tool_input passed_call) "user_response" <> "")
  /\ main stored_review passed_call = Allow.
Proof.
  split; [by vm_compute|].
  apply (passing_verdict_allowed stored_review passed_call); [by vm_compute..|].
  right. by vm_compute.
Defined.

(** C3, as stated, at a PASS verdict with a chain_id and no
    user_response: nothing is stored, so there is no pending-gate
    conflict, and the call is denied. *)
Lemma passing_verdict_counterexample :
  get (tool_input passed_call_no_response) "gate_verdict"
    = "GATE_REVIEW: PASS - all checks done"
  /\ search true fail_re pass_verdict = None
  /\ load_session_state ∅ (session_id passed_call_no_response) = Return None
  /\ main ∅ passed_call_no_response = Deny user_response_text.
Proof. by vm_compute. Qed.

Lemma missing_user_response_denied_witness :
  (Str.contains "prompt_engine" (tool_name resume_call) = true
   /\ get (tool_input resume_call) "chain_id" <> ""
   /\ get (tool_input resume_call) "user_response" = ""
   /\ check_fail_verdict (get (tool_input resume_call) "gate_verdict") = None
   /\ (∅ : storage) !! session_id resume_call = None)
  /\ main ∅ resume_call = Deny user_response_text
  /\ Contains "Include user_response parameter" user_response_text.
Proof.
  split; [by vm_compute|].
  apply (missing_user_response_denied ∅ resume_call); [by vm_compute..|].
  right. by vm_compute.
Defined.

Lemma no_signal_no_update_witness :
  (current_step (detected_state plain_text) = 0
   /\ gate_truthy (pending_gate (detected_state plain_text)) = false)
  /\ parse_prompt_engine_response plain_text = None
  /\ forall (fs : storage) (input : PostPromptEngine.hook_input),
      PostPromptEngine.content_of (PostPromptEngine.response input) = plain_text ->
      PostPromptEngine.main fs input = (fs, None).
Proof.
  split; [by vm_compute|].
  by apply (no_signal_no_update plain_text).
Defined.

Lemma first_step_marker_wins_witness :
  search false step_re marker_text = Some ["Step 2 of 5"; "2"; "5"]
  /\ (exists lead tail,
        lead ∈ step_words /\ group ["Step 2 of 5"; "2"; "5"] 0 = lead +:+ tail)
  /\ current_step (detected_state marker_text) = Str.int (group ["Step 2 of 5"; "2"; "5"] 1)
  /\ total_steps (detected_state marker_text) = Str.int (group ["Step 2 of 5"; "2"; "5"] 2)
  /\ forall lead sep,
       lead ∈ step_words -> sep ∈ step_separators ->
       group ["Step 2 of 5"; "2"; "5"] 0 = lead +:+ " 2" +:+ sep +:+ "5" ->
       exists state,
         parse_prompt_engine_response marker_text = Some state
         /\ current_step state = 2 /\ total_steps state = 5.
Proof.
  split; [by vm_compute|].
  apply (first_step_marker_wins marker_text ["Step 2 of 5"; "2"; "5"]).
  by vm_compute.
Defined.

(** C6, as stated: a text that contains "Step 2 of 5" behind an earlier
    marker yields the earlier marker's numbers, and a marker whose
    leading word is in capitals is not recognised. *)
Lemma step_marker_counterexample :
  Str.contains "Step 2 of 5" two_markers = true
  /\ current_step <$> parse_prompt_engine_response two_markers = Some 1
  /\ total_steps <$> parse_prompt_engine_response two_markers = Some 3
  /\ parse_prompt_engine_response "STEP 2 of 5" = None
  /\ parse_prompt_engine_response "PROGRESS 2/5" = None.
Proof. by vm_compute. Qed.

Lemma criteria_of_bullet_items_witness :
  (Str.contains "## Inline Gates" (render seven_items)
     || Str.contains "Gate" (render seven_items) = true
   /\ length (items_of seven_items) = 7%nat)
  /\ gate_criteria (detected_state (render seven_items))
     = strip <$> take 5 (items_of seven_items)
  /\ ((5 <= length (items_of seven_items))%nat ->
      length (gate_criteria (detected_state (render seven_items))) = 5%nat)
  /\ (forall content,
        Str.contains "## Inline Gates" content || Str.contains "Gate" content = true ->
        gate_criteria (detected_state content)
        = strip <$> filter (fun c => truthy (strip c) = true)
                      (take 5 (findall false criteria_re content)))
  /\ (forall content, (length (gate_criteria (detected_state content)) <= 5)%nat).
Proof.
  split; [by vm_compute|].
  apply (criteria_of_bullet_items seven_items); [|by vm_compute].
  unfold seven_items.
  repeat (constructor; [by vm_compute; auto|]). constructor.
Defined.

(** The seven items of the sample, as the hook reads them. *)
Lemma seven_items_criteria :
  gate_criteria (detected_state (render seven_items))
  = ["tests pass"; "no lint errors"; "docs updated"; "changelog entry";
     "reviewed by a peer"].
Proof. by vm_compute. Qed.

(** C7, as stated: the dash inside a gate heading starts a criterion,
    though the heading is no bullet line. *)
Lemma criteria_dash_counterexample :
  Str.contains "## Inline Gates" dashed_heading = true
  /\ gate_criteria (detected_state dashed_heading) = ["quality"; "tests pass"]
  /\ Spec.gate_criteria dashed_heading = ["tests pass"].
Proof. by vm_compute. Qed.

Lemma load_undecodable_raises_witness :
  stored_undecodable !! "s1" = Some Undecodable
  /\ load_session_state stored_undecodable "s1" = Raise UnicodeDecodeError.
Proof.
  split; [by vm_compute|].
  by apply (load_undecodable_raises stored_undecodable "s1").
Defined.

(** The gate's pending-gate check loads the record outside any handler:
    the hook ends with the exception. *)
Lemma gate_undecodable_uncaught :
  main stored_undecodable resume_call = Uncaught UnicodeDecodeError.
Proof. by vm_compute. Qed.

Lemma save_in_place_witness :
  stored_review !! "s1" <> Some Inaccessible
  /\ exists during after,
      save_trace stored_review "s1" next_state = [during; after]
      /\ save_session_state stored_review "s1" next_state = after
      /\ load_session_state during "s1" = Return None
      /\ load_session_state after "s1" = Return (Some next_state)
      /\ forall other, other <> "s1" ->
           during !! other = stored_review !! other
           /\ after !! other = stored_review !! other.
Proof.
  assert (stored_review !! "s1" <> Some Inaccessible) as Hfs by (by vm_compute).
  split; [done|].
  by apply (save_in_place stored_review "s1" next_state).
Defined.

(** C9, as stated: what a load of the session's record returns before
    a save and at each point of the save.  In the middle of the save
    the record is neither the old nor the new one. *)
Lemma save_not_atomic_counterexample :
  load_session_state stored_review "s1" = Return (Some review_state)
  /\ (fun fs => load_session_state fs "s1") <$> save_trace stored_review "s1" next_state
     = [Return None; Return (Some next_state)].
Proof. by vm_compute. Qed.

Lemma chain_id_is_token_witness :
  (search false chain_re resume_text = Some ["chain-review_42"; "review_42"]
   /\ group ["chain-review_42"; "review_42"] 0 = "chain-" +:+ "review_42")
  /\ chain_id (detected_state resume_text) = "review_42"
  /\ forall state,
       parse_prompt_engine_response resume_text = Some state ->
       chain_id state = "review_42".
Proof.
  split; [by vm_compute|].
  apply (chain_id_is_token resume_text ["chain-review_42"; "review_42"] "review_42");
    [by vm_compute|].
  by left.
Defined.

End Instances.
